(** * Tracer lifecycle manager (otel/tracer/tracer.go)

    A shallow embedding of package [tracer]: [InitTracer], [InitNoopTracer],
    the accessors of [otelTracer] and [Shutdown], together with the parts of
    the Go runtime and of the OpenTelemetry SDK that the package touches.

    - Go pointers are [option]s: [None] is [nil].  The caller's [*Config] is
      a location in a heap, because [InitTracer] writes through it.
    - A value of an interface type that callers supply is an [option] too:
      [None] is the nil interface.  The fields [Creds] and [Sampler] of
      [Config] are pointers to interface values, so each has three shapes:
      nil, a pointer to the nil interface, a pointer to an implementation.
    - The two process-wide slots of package [otel] are fields of the state.
    - A nil dereference is the outcome [Panics].
    - The collaborators whose result the package only inspects ([url.Parse],
      starting the exporter, [resource.New], the SDK provider's [Shutdown])
      are the methods of the class [Collaborators]; every theorem holds for
      every instance of it. *)

From Stdlib Require Import Ascii String.
From stdpp Require Import base option list strings gmap.

Local Open Scope string_scope.

(** ** Go errors *)

(** [errors_New msg] is an error without a cause ([fmt.Errorf] with no [%w]
    verb builds one); [fmt_Errorf_w prefix err] is
    [fmt.Errorf(prefix + "%w", err)]. *)
Inductive error : Type :=
| errors_New (msg : string)
| fmt_Errorf_w (prefix : string) (err : error).

Fixpoint Error (e : error) : string :=
  match e with
  | errors_New msg => msg
  | fmt_Errorf_w prefix err => prefix +:+ Error err
  end.

Definition errors_Unwrap (e : error) : option error :=
  match e with
  | errors_New _ => None
  | fmt_Errorf_w _ err => Some err
  end.

(** ** The packages the tracer imports *)

Module context.
(** A [context.Context] is an opaque reference. *)
Record Context : Type := { id : N }.
End context.

Module url.
(** The two fields of [*url.URL] that [InitTracer] reads. *)
Record URL : Type := { Scheme : string; Host : string }.
End url.

Module credentials.
(** An implementation of the [TransportCredentials] interface. *)
Record Impl : Type := { id : N }.

(** A [credentials.TransportCredentials] interface value. *)
Definition TransportCredentials : Type := option Impl.
End credentials.

Module otlptracegrpc.
Inductive Option : Type :=
| WithEndpoint (endpoint : string)
| WithTLSCredentials (creds : credentials.TransportCredentials)
| WithInsecure
| WithHeaders (headers : gmap string string).

(** [NewClient(opts...)]: the client is determined by its options. *)
Record Client : Type := NewClient { opts : list Option }.

Definition is_WithInsecure (o : Option) : bool :=
  match o with WithInsecure => true | _ => false end.

Definition is_WithTLSCredentials (o : Option) : bool :=
  match o with WithTLSCredentials _ => true | _ => false end.

(** The transport negotiates no security: insecure mode was asked for and
    no TLS credentials were handed over. *)
Definition no_transport_security (c : Client) : bool :=
  existsb is_WithInsecure (opts c) && negb (existsb is_WithTLSCredentials (opts c)).

(** The headers attached to every export call: those of the last
    [WithHeaders] option, none when there is no such option. *)
Definition headers_of (c : Client) : gmap string string :=
  fold_left (fun acc o => match o with WithHeaders h => h | _ => acc end)
            (opts c) ∅.
End otlptracegrpc.

Module otlptrace.
Record Exporter : Type := { client : otlptracegrpc.Client }.
End otlptrace.

Module attribute.
Record KeyValue : Type := { Key : string; Value : string }.
End attribute.

Module semconv.
Definition ServiceNameKey : string := "service.name".
Definition ServiceVersionKey : string := "service.version".
Definition DeploymentEnvironmentKey : string := "deployment.environment".
Definition TelemetrySDKLanguageKey : string := "telemetry.sdk.language".
(** [key.String(v)] *)
Definition String (key v : string) : attribute.KeyValue :=
  {| attribute.Key := key; attribute.Value := v |}.
End semconv.

Module resource.
Record Resource : Type := { Attributes : list attribute.KeyValue }.
End resource.

Module sdkTrace.
Inductive SamplingDecision : Type := Drop | RecordOnly | RecordAndSample.

(** What a sampler reads of the parent span context. *)
Record SpanContext : Type := { IsValid : bool; IsRemote : bool; IsSampled : bool }.

Record SamplingParameters : Type :=
  { ParentContext : SpanContext; TraceID : N; Name : string }.

(** An implementation of the [Sampler] interface. *)
Record SamplerImpl : Type :=
  { ShouldSample : SamplingParameters -> SamplingDecision;
    Description : string }.

(** A [Sampler] interface value. *)
Definition Sampler : Type := option SamplerImpl.

Definition alwaysOnSampler : SamplerImpl :=
  {| ShouldSample := fun _ => RecordAndSample;
     Description := "AlwaysOnSampler" |}.

Definition alwaysOffSampler : SamplerImpl :=
  {| ShouldSample := fun _ => Drop;
     Description := "AlwaysOffSampler" |}.

(** [AlwaysSample()]: the SDK's sampler that records and samples every
    span. *)
Definition AlwaysSample : Sampler := Some alwaysOnSampler.

(** [ParentBased(root)] with its default delegates: a span with a valid
    parent is sampled exactly when the parent is, remote or local; a span
    without one is left to [root]. *)
Definition parentBased (root : SamplerImpl) : SamplerImpl :=
  {| ShouldSample := fun p =>
       let psc := ParentContext p in
       if IsValid psc then
         if IsRemote psc then
           if IsSampled psc then ShouldSample alwaysOnSampler p
           else ShouldSample alwaysOffSampler p
         else
           if IsSampled psc then ShouldSample alwaysOnSampler p
           else ShouldSample alwaysOffSampler p
       else ShouldSample root p;
     Description :=
       "ParentBased{root:" +:+ Description root
       +:+ ",remoteParentSampled:AlwaysOnSampler,remoteParentNotSampled:AlwaysOffSampler"
       +:+ ",localParentSampled:AlwaysOnSampler,localParentNotSampled:AlwaysOffSampler}" |}.

(** What [NewTracerProvider] is given: [WithSampler], [WithBatcher] and
    [WithResource]. *)
Record TracerProvider : Type :=
  NewTracerProvider
    { WithSampler : Sampler;
      WithBatcher : otlptrace.Exporter;
      WithResource : resource.Resource }.

(** The sampler a provider samples with.  [WithSampler] ignores the nil
    interface, and a provider left without a sampler takes
    [ParentBased(AlwaysSample())] (no sampler being set through the
    environment). *)
Definition sampler (tp : TracerProvider) : SamplerImpl :=
  match WithSampler tp with
  | Some s => s
  | None => parentBased alwaysOnSampler
  end.
End sdkTrace.

Module trace.
(** The implementations of the [trace.TracerProvider] interface: the SDK's
    [*sdkTrace.TracerProvider], [noop.TracerProvider], and any other one
    (such as the delegating provider the slot holds at start-up). *)
Inductive TracerProvider : Type :=
| Sdk (tp : sdkTrace.TracerProvider)
| Noop
| Other (id : N).

(** A tracer belongs to the provider it was asked from, and carries the
    name of its instrumentation scope when its implementation keeps one. *)
Record Tracer : Type := { provider : TracerProvider; name : option string }.

Definition defaultTracerName : string := "go.opentelemetry.io/otel/sdk/tracer".

(** [p.Tracer(n)].  The SDK's provider names the tracer [n], or
    [defaultTracerName] for the empty name; the no-op provider gives its
    one tracer, which has no name; any other provider is taken to keep the
    name. *)
Definition TracerProvider_Tracer (p : TracerProvider) (n : string) : Tracer :=
  match p with
  | Sdk _ =>
      {| provider := p;
         name := Some (if decide (n = "") then defaultTracerName else n) |}
  | Noop => {| provider := p; name := None |}
  | Other _ => {| provider := p; name := Some n |}
  end.
End trace.

Module noop.
Definition NewTracerProvider : trace.TracerProvider := trace.Noop.
End noop.

Module propagation.
#[warnings="-register-all"] Inductive TextMapPropagator : Type :=
| TraceContext
| Baggage
| Composite (ps : list TextMapPropagator)
| Other (id : N).

Definition NewCompositeTextMapPropagator (ps : list TextMapPropagator)
  : TextMapPropagator := Composite ps.
End propagation.

(** ** Package tracer: data *)

Record otelTracer : Type :=
  { tracer : option trace.Tracer;
    tracerProvider : option trace.TracerProvider }.

Record Config : Type :=
  { ExporterURL : string;
    SecretToken : string;
    ServiceName : string;
    ServiceVersion : string;
    DeploymentEnvironment : string;
    Creds : option credentials.TransportCredentials;
    Sampler : option sdkTrace.Sampler }.

(** [c] after the assignment [c.Creds = v]. *)
Definition set_Creds (v : option credentials.TransportCredentials) (c : Config) : Config :=
  {| ExporterURL := ExporterURL c;
     SecretToken := SecretToken c;
     ServiceName := ServiceName c;
     ServiceVersion := ServiceVersion c;
     DeploymentEnvironment := DeploymentEnvironment c;
     Creds := v;
     Sampler := Sampler c |}.

(** ** The process state *)

Definition loc : Type := positive.

(** A [*Config]. *)
Definition ptr : Type := option loc.

(** The calls that can reach outside the process: an exporter being
    started on a client, and [Shutdown] being called on an SDK provider. *)
Inductive Event : Type :=
| ExporterStart (ctx : context.Context) (c : otlptracegrpc.Client)
| ProviderShutdown (ctx : context.Context) (tp : sdkTrace.TracerProvider).

Record State : Type :=
  { heap : gmap loc Config;
    globalTracerProvider : trace.TracerProvider;
    globalPropagator : propagation.TextMapPropagator;
    events : list Event }.

Inductive outcome (A : Type) : Type :=
| Returns (a : A)
| Panics (msg : string).
Arguments Returns {A} a.
Arguments Panics {A} msg.

Definition M (A : Type) : Type := State -> outcome A * State.

#[global] Instance M_ret : MRet M := fun A a σ => (Returns a, σ).

#[global] Instance M_bind : MBind M := fun A B f m σ =>
  match m σ with
  | (Returns a, σ') => f a σ'
  | (Panics msg, σ') => (Panics msg, σ')
  end.

Definition nil_dereference : string :=
  "invalid memory address or nil pointer dereference".

(** [*p], for reading a field of the pointed-to [Config].  Go has no
    dangling pointers: the heaps of interest hold every location in use, and
    a location outside the heap is treated like nil. *)
Definition deref (p : ptr) : M Config := fun σ =>
  match p with
  | None => (Panics nil_dereference, σ)
  | Some l =>
      match heap σ !! l with
      | Some c => (Returns c, σ)
      | None => (Panics nil_dereference, σ)
      end
  end.

(** [p.Creds = v] *)
Definition assign_Creds (p : ptr) (v : option credentials.TransportCredentials) : M unit :=
  fun σ =>
  match p with
  | None => (Panics nil_dereference, σ)
  | Some l =>
      match heap σ !! l with
      | Some c =>
          (Returns tt,
           {| heap := <[l := set_Creds v c]> (heap σ);
              globalTracerProvider := globalTracerProvider σ;
              globalPropagator := globalPropagator σ;
              events := events σ |})
      | None => (Panics nil_dereference, σ)
      end
  end.

Definition emit (e : Event) : M unit := fun σ =>
  (Returns tt,
   {| heap := heap σ;
      globalTracerProvider := globalTracerProvider σ;
      globalPropagator := globalPropagator σ;
      events := events σ ++ [e] |}).

Module otel.
Definition SetTracerProvider (tp : trace.TracerProvider) : M unit := fun σ =>
  (Returns tt,
   {| heap := heap σ;
      globalTracerProvider := tp;
      globalPropagator := globalPropagator σ;
      events := events σ |}).

Definition SetTextMapPropagator (p : propagation.TextMapPropagator) : M unit := fun σ =>
  (Returns tt,
   {| heap := heap σ;
      globalTracerProvider := globalTracerProvider σ;
      globalPropagator := p;
      events := events σ |}).

Definition GetTracerProvider : M trace.TracerProvider := fun σ =>
  (Returns (globalTracerProvider σ), σ).

(** [otel.Tracer(name)] is [GetTracerProvider().Tracer(name)]. *)
Definition Tracer (name : string) : M trace.Tracer :=
  tp ← GetTracerProvider;
  mret (trace.TracerProvider_Tracer tp name).
End otel.

(** ** The collaborators *)

Class Collaborators : Type :=
  { (** [url.Parse] *)
    url_Parse : string -> url.URL + error;
    (** whether starting the exporter on a client fails *)
    exporter_Start : context.Context -> otlptracegrpc.Client -> option error;
    (** [resource.New(ctx, resource.WithAttributes(kvs...))] *)
    resource_New : context.Context -> list attribute.KeyValue -> resource.Resource + error;
    (** the [Shutdown] method of the SDK provider.  A provider has a state
        of its own (one that was shut down remembers it), so what the call
        returns may depend on the calls made before it: it is given the
        events so far. *)
    provider_Shutdown :
      context.Context -> sdkTrace.TracerProvider -> list Event -> option error }.

Section Tracer.
Context `{Collaborators}.

(** [otlptrace.New(ctx, client)]: build the exporter and start it; a failed
    start is the error returned. *)
Definition otlptrace_New (ctx : context.Context) (c : otlptracegrpc.Client)
  : M (otlptrace.Exporter + error) :=
  emit (ExporterStart ctx c) ;;
  match exporter_Start ctx c with
  | Some err => mret (inr err)
  | None => mret (inl {| otlptrace.client := c |})
  end.

(** [tp.Shutdown(ctx)] on the SDK provider. *)
Definition sdkTrace_Shutdown (ctx : context.Context) (tp : sdkTrace.TracerProvider)
  : M (option error) := fun σ =>
  (emit (ProviderShutdown ctx tp) ;;
   mret (provider_Shutdown ctx tp (events σ))) σ.

(** ** Package tracer: functions *)

Definition InitTracer (ctx : context.Context) (cfg : ptr)
  : M (option otelTracer * option error) :=
  c ← deref cfg;
  if decide (ExporterURL c = "") then
    mret (None, Some (errors_New "endpoint is missing in the otlp tracer configuration"))
  else if decide (ServiceName c = "") then
    mret (None, Some (errors_New "service name is missing in the otlp tracer configuration"))
  else
    match url_Parse (ExporterURL c) with
    | inr err => mret (None, Some (fmt_Errorf_w "invalid exporter URL: " err))
    | inl u =>
        let endpoint := url.Host u in
        (if decide (url.Scheme u = "http") then assign_Creds cfg None else mret tt) ;;
        c ← deref cfg;
        let secureOption :=
          match Creds c with
          | Some creds => otlptracegrpc.WithTLSCredentials creds
          | None => otlptracegrpc.WithInsecure
          end in
        r ← otlptrace_New ctx
              (otlptracegrpc.NewClient
                 [ otlptracegrpc.WithEndpoint endpoint;
                   secureOption;
                   otlptracegrpc.WithHeaders
                     {[ "Authorization" := "Bearer " +:+ SecretToken c ]} ]);
        match r with
        | inr err => mret (None, Some (fmt_Errorf_w "failed to create otlp exporter: " err))
        | inl exporter =>
            match resource_New ctx
                    [ semconv.String semconv.ServiceNameKey (ServiceName c);
                      semconv.String semconv.ServiceVersionKey (ServiceVersion c);
                      semconv.String semconv.DeploymentEnvironmentKey (DeploymentEnvironment c);
                      semconv.String semconv.TelemetrySDKLanguageKey "go" ] with
            | inr err => mret (None, Some (fmt_Errorf_w "failed to create otlp resource: " err))
            | inl res =>
                let sampler :=
                  match Sampler c with
                  | Some s => s
                  | None => sdkTrace.AlwaysSample
                  end in
                let tp := trace.Sdk (sdkTrace.NewTracerProvider sampler exporter res) in
                otel.SetTracerProvider tp ;;
                otel.SetTextMapPropagator
                  (propagation.NewCompositeTextMapPropagator
                     [ propagation.TraceContext; propagation.Baggage ]) ;;
                tr ← otel.Tracer (ServiceName c +:+ "-tracer");
                mret (Some {| tracer := Some tr; tracerProvider := Some tp |}, None)
            end
        end
    end.

Definition InitNoopTracer (ctx : context.Context)
  : M (option otelTracer * option error) :=
  let tp := noop.NewTracerProvider in
  otel.SetTracerProvider tp ;;
  tr ← otel.Tracer "noop-tracer";
  mret (Some {| tracer := Some tr; tracerProvider := Some tp |}, None).

(** The receiver of the three methods is a [*otelTracer]; the object is
    never written, so the pointer is the [option] of its value. *)
Definition receiver (t : option otelTracer) : M otelTracer := fun σ =>
  match t with
  | Some o => (Returns o, σ)
  | None => (Panics nil_dereference, σ)
  end.

Definition Tracer (t : option otelTracer) : M (option trace.Tracer) :=
  o ← receiver t;
  match tracer o with
  | Some tr => mret (Some tr)
  | None => mret None
  end.

Definition TracerProvider (t : option otelTracer) : M (option trace.TracerProvider) :=
  o ← receiver t;
  match tracerProvider o with
  | Some tp => mret (Some tp)
  | None => mret None
  end.

Definition Shutdown (ctx : context.Context) (t : option otelTracer) : M (option error) :=
  o ← receiver t;
  match tracerProvider o with
  | Some (trace.Sdk tp) =>
      r ← sdkTrace_Shutdown ctx tp;
      match r with
      | Some err => mret (Some (fmt_Errorf_w "failed to shutdown tracer provider: " err))
      | None => mret None
      end
  | _ => mret None
  end.

End Tracer.

(** ** Closed collaborators, for running the functions *)

Fixpoint until_slash (s : string) : string :=
  match s with
  | EmptyString => EmptyString
  | String a r => if Ascii.eqb a "/"%char then EmptyString else String a (until_slash r)
  end.

(** A stand-in for [url.Parse] on the shapes [scheme://host] and
    [scheme://host/path]; any other string parses to the empty scheme and
    host, except that a leading colon is refused. *)
Definition stub_Parse (s : string) : url.URL + error :=
  if String.prefix ":" s then inr (errors_New "missing protocol scheme") else
  match String.index 0 "://" s with
  | Some i =>
      inl {| url.Scheme := String.substring 0 i s;
             url.Host := until_slash (String.substring (i + 3) (String.length s - (i + 3)) s) |}
  | None => inl {| url.Scheme := ""; url.Host := "" |}
  end.

(** Collaborators whose exporter start and provider shutdown give the two
    results chosen; building the resource always works. *)
Definition stub (start shutdown : option error) : Collaborators :=
  {| url_Parse := stub_Parse;
     exporter_Start := fun _ _ => start;
     resource_New := fun _ kvs => inl {| resource.Attributes := kvs |};
     provider_Shutdown := fun _ _ _ => shutdown |}.

Definition background : context.Context := {| context.id := 0 |}.

(** A process that holds one [Config], at location 1, and whose two slots
    hold what was there at start-up. *)
Definition process (c : Config) : State :=
  {| heap := {[ 1%positive := c ]};
     globalTracerProvider := trace.Other 0;
     globalPropagator := propagation.Other 0;
     events := [] |}.

Definition tlsCreds : credentials.TransportCredentials := Some {| credentials.id := 7 |}.

(** [Config{ExporterURL: "not a url"}] *)
Definition cfg_not_a_url : Config :=
  {| ExporterURL := "not a url"; SecretToken := ""; ServiceName := "";
     ServiceVersion := ""; DeploymentEnvironment := "";
     Creds := None; Sampler := None |}.

(** [Config{ExporterURL: "http://localhost:4317", ServiceName: "x", Creds: &tlsCreds}] *)
Definition cfg_http_creds : Config :=
  {| ExporterURL := "http://localhost:4317"; SecretToken := ""; ServiceName := "x";
     ServiceVersion := ""; DeploymentEnvironment := "";
     Creds := Some tlsCreds; Sampler := None |}.

(** [Config{ExporterURL: "https://collector.example:4317", ServiceName: "orders"}] *)
Definition cfg_orders : Config :=
  {| ExporterURL := "https://collector.example:4317"; SecretToken := ""; ServiceName := "orders";
     ServiceVersion := ""; DeploymentEnvironment := "";
     Creds := None; Sampler := None |}.

(** [InitTracer] on the second configuration, with every collaborator
    succeeding. *)
Definition run_http_creds : outcome (option otelTracer * option error) * State :=
  InitTracer (H := stub None None) background (Some 1%positive) (process cfg_http_creds).

(** [InitTracer] on the first configuration. *)
Definition run_not_a_url : outcome (option otelTracer * option error) * State :=
  InitTracer (H := stub None None) background (Some 1%positive) (process cfg_not_a_url).

(** [InitTracer] on the third configuration, with every collaborator
    succeeding. *)
Definition run_orders : outcome (option otelTracer * option error) * State :=
  InitTracer (H := stub None None) background (Some 1%positive) (process cfg_orders).

Definition connection_refused : error := errors_New "connection refused".

Definition deadline_exceeded : error := errors_New "context deadline exceeded".

(** [InitTracer] on the third configuration, with an exporter that does
    not start. *)
Definition run_exporter_down : outcome (option otelTracer * option error) * State :=
  InitTracer (H := stub (Some connection_refused) None)
             background (Some 1%positive) (process cfg_orders).

(** A sampler of the caller's own, which drops every span. *)
Definition dropAll : sdkTrace.Sampler :=
  Some {| sdkTrace.ShouldSample := fun _ => sdkTrace.Drop;
          sdkTrace.Description := "dropAll" |}.

(** [Config{ExporterURL: "https://collector.example:4317", SecretToken: "s3cr3t",
    ServiceName: "orders", Creds: &tlsCreds, Sampler: &dropAll}] *)
Definition cfg_sampled : Config :=
  {| ExporterURL := "https://collector.example:4317"; SecretToken := "s3cr3t";
     ServiceName := "orders"; ServiceVersion := "1.2.0"; DeploymentEnvironment := "prod";
     Creds := Some tlsCreds; Sampler := Some dropAll |}.

Definition run_sampled : outcome (option otelTracer * option error) * State :=
  InitTracer (H := stub None None) background (Some 1%positive) (process cfg_sampled).

(** The handle a run returned, nil when it panicked. *)
Definition handle_of (r : outcome (option otelTracer * option error) * State)
  : option otelTracer :=
  match r.1 with
  | Returns (h, _) => h
  | Panics _ => None
  end.

(** The provider and the handle that [run_orders] builds. *)
Definition orders_provider : sdkTrace.TracerProvider :=
  sdkTrace.NewTracerProvider
    sdkTrace.AlwaysSample
    {| otlptrace.client :=
         otlptracegrpc.NewClient
           [ otlptracegrpc.WithEndpoint "collector.example:4317";
             otlptracegrpc.WithInsecure;
             otlptracegrpc.WithHeaders {[ "Authorization" := "Bearer " ]} ] |}
    {| resource.Attributes :=
         [ semconv.String "service.name" "orders";
           semconv.String "service.version" "";
           semconv.String "deployment.environment" "";
           semconv.String "telemetry.sdk.language" "go" ] |}.

Definition orders_handle : otelTracer :=
  {| tracer := Some {| trace.provider := trace.Sdk orders_provider;
                       trace.name := Some "orders-tracer" |};
     tracerProvider := Some (trace.Sdk orders_provider) |}.

(** ** Reasoning about runs *)

(** Collaborators whose provider behaves as the SDK's does on [Shutdown]:
    the first call on it fails with the deadline error, and any later call
    returns nil at once, the provider having been shut down. *)
Definition is_ProviderShutdown (e : Event) : bool :=
  match e with ProviderShutdown _ _ => true | _ => false end.

Definition stub_remembers : Collaborators :=
  {| url_Parse := stub_Parse;
     exporter_Start := fun _ _ => None;
     resource_New := fun _ kvs => inl {| resource.Attributes := kvs |};
     provider_Shutdown := fun _ _ before =>
       if existsb is_ProviderShutdown before then None else Some deadline_exceeded |}.

(** [var s sdkTrace.Sampler] left nil, and
    [Config{ExporterURL: "https://collector.example:4317", ServiceName: "orders",
    Sampler: &s}] *)
Definition nilSampler : sdkTrace.Sampler := None.

Definition cfg_nil_sampler : Config :=
  {| ExporterURL := "https://collector.example:4317"; SecretToken := "";
     ServiceName := "orders"; ServiceVersion := ""; DeploymentEnvironment := "";
     Creds := None; Sampler := Some nilSampler |}.

Definition run_nil_sampler : outcome (option otelTracer * option error) * State :=
  InitTracer (H := stub None None) background (Some 1%positive) (process cfg_nil_sampler).

(** A span whose parent is local, valid and not sampled. *)
Definition child_of_unsampled : sdkTrace.SamplingParameters :=
  {| sdkTrace.ParentContext :=
       {| sdkTrace.IsValid := true; sdkTrace.IsRemote := false; sdkTrace.IsSampled := false |};
     sdkTrace.TraceID := 1; sdkTrace.Name := "child" |}.

(** [otelTracer{}], the zero-valued handle. *)
Definition zero_handle : otelTracer := {| tracer := None; tracerProvider := None |}.

Example stub_Parse_http :
  stub_Parse "http://localhost:4317" = inl {| url.Scheme := "http"; url.Host := "localhost:4317" |}.
Proof. reflexivity. Qed.

Example stub_Parse_not_a_url :
  stub_Parse "not a url" = inl {| url.Scheme := ""; url.Host := "" |}.
Proof. reflexivity. Qed.

Example run_orders_result :
  run_orders
  = (Returns (Some orders_handle, None),
     {| heap := {[ 1%positive := cfg_orders ]};
        globalTracerProvider := trace.Sdk orders_provider;
        globalPropagator :=
          propagation.Composite [propagation.TraceContext; propagation.Baggage];
        events := [ExporterStart background
                     (otlptrace.client (sdkTrace.WithBatcher orders_provider))] |}).
Proof. vm_compute. reflexivity. Qed.

Example run_exporter_down_result :
  run_exporter_down
  = (Returns (None, Some (fmt_Errorf_w "failed to create otlp exporter: " connection_refused)),
     {| heap := {[ 1%positive := cfg_orders ]};
        globalTracerProvider := trace.Other 0;
        globalPropagator := propagation.Other 0;
        events := [ExporterStart background
                     (otlptrace.client (sdkTrace.WithBatcher orders_provider))] |}).
Proof. vm_compute. reflexivity. Qed.

Section Runs.
Context `{Collaborators}.

Lemma bind_Returns {A B} (m : M A) (k : A -> M B) σ a σ1 :
  m σ = (Returns a, σ1) -> (m ≫= k) σ = k a σ1.
Proof. intros Hm. unfold mbind, M_bind. by rewrite Hm. Qed.

Lemma bind_Panics {A B} (m : M A) (k : A -> M B) σ msg σ1 :
  m σ = (Panics msg, σ1) -> (m ≫= k) σ = (Panics msg, σ1).
Proof. intros Hm. unfold mbind, M_bind. by rewrite Hm. Qed.

Lemma deref_live l c σ : heap σ !! l = Some c -> deref (Some l) σ = (Returns c, σ).
Proof. intros Hl. unfold deref. by rewrite Hl. Qed.

Lemma tracer_name_nonempty (s : string) : s +:+ "-tracer" <> "".
Proof. by destruct s. Qed.


Ltac unfold_M :=
  unfold InitTracer, InitNoopTracer, Shutdown, Tracer, TracerProvider, receiver,
    otlptrace_New, sdkTrace_Shutdown, otel.Tracer, otel.GetTracerProvider,
    otel.SetTracerProvider, otel.SetTextMapPropagator, emit, assign_Creds, deref,
    trace.TracerProvider_Tracer, mbind, M_bind, mret, M_ret in *.

Ltac run :=
  unfold_M; simpl in *;
  repeat first
    [ match goal with
      | Hname : ?s +:+ "-tracer" = "" |- _ => destruct (tracer_name_nonempty s Hname)
      end
    | progress simplify_map_eq/=
    | case_decide
    | case_match ].

Lemma InitTracer_accepted_inv ctx cfg σ h σ' :
  InitTracer ctx cfg σ = (Returns (h, None), σ') ->
  exists l c u res,
    cfg = Some l /\ heap σ !! l = Some c
    /\ ExporterURL c <> "" /\ ServiceName c <> ""
    /\ url_Parse (ExporterURL c) = inl u
    /\ let creds := if decide (url.Scheme u = "http") then None else Creds c in
       let client :=
         otlptracegrpc.NewClient
           [ otlptracegrpc.WithEndpoint (url.Host u);
             match creds with
             | Some cr => otlptracegrpc.WithTLSCredentials cr
             | None => otlptracegrpc.WithInsecure
             end;
             otlptracegrpc.WithHeaders {[ "Authorization" := "Bearer " +:+ SecretToken c ]} ] in
       let tp :=
         trace.Sdk (sdkTrace.NewTracerProvider
                      (default sdkTrace.AlwaysSample (Sampler c))
                      {| otlptrace.client := client |} res) in
       exporter_Start ctx client = None
       /\ resource_New ctx
            [ semconv.String semconv.ServiceNameKey (ServiceName c);
              semconv.String semconv.ServiceVersionKey (ServiceVersion c);
              semconv.String semconv.DeploymentEnvironmentKey (DeploymentEnvironment c);
              semconv.String semconv.TelemetrySDKLanguageKey "go" ] = inl res
       /\ h = Some {| tracer := Some {| trace.provider := tp;
                                        trace.name := Some (ServiceName c +:+ "-tracer") |};
                      tracerProvider := Some tp |}
       /\ σ' = {| heap := if decide (url.Scheme u = "http")
                          then <[l := set_Creds None c]> (heap σ) else heap σ;
                  globalTracerProvider := tp;
                  globalPropagator :=
                    propagation.Composite [propagation.TraceContext; propagation.Baggage];
                  events := (events σ ++ [ExporterStart ctx client])%list |}.
Proof.
  intros Hrun. run.
  all: eexists _, _, _, _; repeat split; eauto; run; done.
Qed.

(** *** The five ways initialization fails *)

Lemma InitTracer_missing_endpoint ctx l c σ :
  heap σ !! l = Some c -> ExporterURL c = "" ->
  InitTracer ctx (Some l) σ
  = (Returns (None, Some (errors_New "endpoint is missing in the otlp tracer configuration")), σ).
Proof.
  intros Hl Hurl. unfold InitTracer.
  rewrite (bind_Returns _ _ _ _ _ (deref_live _ _ _ Hl)).
  by rewrite decide_True.
Qed.

Lemma InitTracer_missing_service_name ctx l c σ :
  heap σ !! l = Some c -> ExporterURL c <> "" -> ServiceName c = "" ->
  InitTracer ctx (Some l) σ
  = (Returns (None, Some (errors_New "service name is missing in the otlp tracer configuration")), σ).
Proof.
  intros Hl Hurl Hname. unfold InitTracer.
  rewrite (bind_Returns _ _ _ _ _ (deref_live _ _ _ Hl)).
  rewrite decide_False by done. by rewrite decide_True.
Qed.

Lemma InitTracer_invalid_URL ctx l c err σ :
  heap σ !! l = Some c -> ExporterURL c <> "" -> ServiceName c <> "" ->
  url_Parse (ExporterURL c) = inr err ->
  InitTracer ctx (Some l) σ
  = (Returns (None, Some (fmt_Errorf_w "invalid exporter URL: " err)), σ).
Proof.
  intros Hl Hurl Hname Hparse. unfold InitTracer.
  rewrite (bind_Returns _ _ _ _ _ (deref_live _ _ _ Hl)).
  rewrite !decide_False by done. by rewrite Hparse.
Qed.

Lemma InitTracer_exporter_failure ctx l c u err σ :
  heap σ !! l = Some c -> ExporterURL c <> "" -> ServiceName c <> "" ->
  url_Parse (ExporterURL c) = inl u ->
  (forall client, exporter_Start ctx client = Some err) ->
  (InitTracer ctx (Some l) σ).1
  = Returns (None, Some (fmt_Errorf_w "failed to create otlp exporter: " err)).
Proof.
  intros Hl Hurl Hname Hparse Hstart. unfold InitTracer.
  rewrite (bind_Returns _ _ _ _ _ (deref_live _ _ _ Hl)).
  rewrite !decide_False by done. rewrite Hparse.
  unfold_M. simpl. case_decide; simpl; rewrite ?Hl; simpl;
    rewrite ?lookup_insert_eq, ?Hl, Hstart; done.
Qed.

Lemma InitTracer_resource_failure ctx l c u err σ :
  heap σ !! l = Some c -> ExporterURL c <> "" -> ServiceName c <> "" ->
  url_Parse (ExporterURL c) = inl u ->
  (forall client, exporter_Start ctx client = None) ->
  (forall kvs, resource_New ctx kvs = inr err) ->
  (InitTracer ctx (Some l) σ).1
  = Returns (None, Some (fmt_Errorf_w "failed to create otlp resource: " err)).
Proof.
  intros Hl Hurl Hname Hparse Hstart Hres. unfold InitTracer.
  rewrite (bind_Returns _ _ _ _ _ (deref_live _ _ _ Hl)).
  rewrite !decide_False by done. rewrite Hparse.
  unfold_M. simpl. case_decide; simpl; rewrite ?Hl; simpl;
    rewrite ?lookup_insert_eq, ?Hl, Hstart, Hres; done.
Qed.

(** *** The accessors *)

Lemma Tracer_field o σ : Tracer (Some o) σ = (Returns (tracer o), σ).
Proof. unfold Tracer. rewrite (bind_Returns _ _ σ o σ) by done. by destruct (tracer o). Qed.

Lemma TracerProvider_field o σ :
  TracerProvider (Some o) σ = (Returns (tracerProvider o), σ).
Proof.
  unfold TracerProvider. rewrite (bind_Returns _ _ σ o σ) by done.
  by destruct (tracerProvider o).
Qed.

Lemma Shutdown_nil_receiver ctx σ : Shutdown ctx None σ = (Panics nil_dereference, σ).
Proof. unfold Shutdown. by rewrite (bind_Panics _ _ σ nil_dereference σ). Qed.

(** *** What a call leaves in the heap *)

Lemma InitTracer_heap ctx l c σ :
  heap σ !! l = Some c ->
  heap (InitTracer ctx (Some l) σ).2
  = if decide (ExporterURL c = "") then heap σ
    else if decide (ServiceName c = "") then heap σ
    else match url_Parse (ExporterURL c) with
         | inl u =>
             if decide (url.Scheme u = "http")
             then <[l := set_Creds None c]> (heap σ)
             else heap σ
         | inr _ => heap σ
         end.
Proof.
  intros Hl. unfold InitTracer.
  rewrite (bind_Returns _ _ _ _ _ (deref_live _ _ _ Hl)).
  destruct (decide (ExporterURL c = "")); [done|].
  destruct (decide (ServiceName c = "")); [done|].
  destruct (url_Parse (ExporterURL c)) as [u|err]; [|done].
  destruct (decide (url.Scheme u = "http")); run; done.
Qed.

(** *** The claims *)

(** C1. Whenever [InitTracer] returns an error, the process-wide
    tracer-provider slot and the process-wide propagation-policy slot hold
    what they held before the call. *)
Theorem InitTracer_error_keeps_globals ctx cfg σ r e σ' :
  InitTracer ctx cfg σ = (Returns (r, Some e), σ') ->
  globalTracerProvider σ' = globalTracerProvider σ
  /\ globalPropagator σ' = globalPropagator σ.
Proof.
  intros Hrun. destruct cfg as [l|]; [|run].
  destruct (heap σ !! l) as [c|] eqn:Hl; [|run].
  unfold InitTracer in Hrun.
  rewrite (bind_Returns _ _ _ _ _ (deref_live _ _ _ Hl)) in Hrun.
  destruct (decide (ExporterURL c = "")); [by run|].
  destruct (decide (ServiceName c = "")); [by run|].
  destruct (url_Parse (ExporterURL c)) as [u|err]; [|by run].
  (* from here on the two slots are written only by the last three calls,
     which end in a nil error *)
  run; done.
Qed.

(** C2. When the endpoint parses to the scheme http, the exporter is
    started on a client built with [WithInsecure] and without TLS
    credentials, whatever [Creds] the configuration holds; on success that
    client is the one of the provider's exporter. *)
Theorem InitTracer_http_is_insecure ctx l c u σ :
  heap σ !! l = Some c ->
  ExporterURL c <> "" -> ServiceName c <> "" ->
  url_Parse (ExporterURL c) = inl u ->
  url.Scheme u = "http" ->
  exists client,
    events (InitTracer ctx (Some l) σ).2 = (events σ ++ [ExporterStart ctx client])%list
    /\ otlptracegrpc.opts client
       = [ otlptracegrpc.WithEndpoint (url.Host u);
           otlptracegrpc.WithInsecure;
           otlptracegrpc.WithHeaders {[ "Authorization" := "Bearer " +:+ SecretToken c ]} ]
    /\ otlptracegrpc.no_transport_security client = true
    /\ forall o, (InitTracer ctx (Some l) σ).1 = Returns (Some o, None) ->
         exists tp, tracerProvider o = Some (trace.Sdk tp)
                    /\ otlptrace.client (sdkTrace.WithBatcher tp) = client.
Proof.
  intros Hl Hurl Hname Hparse Hscheme.
  eexists (otlptracegrpc.NewClient _).
  unfold InitTracer.
  rewrite (bind_Returns _ _ _ _ _ (deref_live _ _ _ Hl)).
  rewrite !decide_False by done. rewrite Hparse. simpl.
  rewrite decide_True by done.
  unfold_M. simpl. rewrite Hl. simpl. rewrite lookup_insert_eq. simpl.
  split_and!; [| reflexivity | reflexivity |].
  - repeat case_match; simplify_eq/=; done.
  - intros o Ho. repeat case_match; simplify_eq/=; by eexists.
Qed.

(** C3, as amended. On success the provider, which is the handle's, the
    tracer's and the one in the slot, samples with the configuration's
    sampler when the [Sampler] field points to one, and with [AlwaysSample]
    when the field is nil; [AlwaysSample] records and samples whatever it
    is asked about. *)
Theorem InitTracer_sampler ctx l c σ h σ' :
  heap σ !! l = Some c ->
  InitTracer ctx (Some l) σ = (Returns (h, None), σ') ->
  exists o tp,
    h = Some o
    /\ tracerProvider o = Some (trace.Sdk tp)
    /\ trace.provider <$> tracer o = Some (trace.Sdk tp)
    /\ globalTracerProvider σ' = trace.Sdk tp
    /\ (forall s, Sampler c = Some (Some s) ->
                  sdkTrace.WithSampler tp = Some s /\ sdkTrace.sampler tp = s)
    /\ (Sampler c = None ->
        sdkTrace.WithSampler tp = sdkTrace.AlwaysSample
        /\ sdkTrace.sampler tp = sdkTrace.alwaysOnSampler
        /\ forall p, sdkTrace.ShouldSample (sdkTrace.sampler tp) p
                     = sdkTrace.RecordAndSample).
Proof.
  intros Hl Hrun.
  destruct (InitTracer_accepted_inv _ _ _ _ _ Hrun)
    as (l' & c' & u & res & ? & Hl' & _ & _ & _ & _ & _ & -> & ->).
  simplify_eq. eexists _, _. split_and!; try reflexivity.
  - intros s Hs. unfold sdkTrace.sampler. simpl. by rewrite Hs.
  - intros Hs. unfold sdkTrace.sampler. simpl. by rewrite Hs.
Qed.

(** C4, as amended. [Config{ExporterURL: "not a url"}] has no service
    name: [InitTracer] returns the missing-service-name error before the URL
    is parsed, and leaves the whole state, the two slots included, as it
    was. *)
Theorem InitTracer_not_a_url ctx l c σ :
  heap σ !! l = Some c ->
  ExporterURL c = "not a url" -> ServiceName c = "" ->
  InitTracer ctx (Some l) σ
  = (Returns (None, Some (errors_New "service name is missing in the otlp tracer configuration")), σ).
Proof.
  intros Hl Hurl Hname.
  apply (InitTracer_missing_service_name _ _ c); [done | by rewrite Hurl | done].
Qed.

(** C5, as amended. For a configuration that passes validation, the call
    leaves every field but [Creds] as it was; [Creds] is nil afterwards when
    the endpoint's scheme is http and is as it was otherwise.  No other
    location of the heap is written. *)
Theorem InitTracer_Config_after ctx l c u σ :
  heap σ !! l = Some c ->
  ExporterURL c <> "" -> ServiceName c <> "" ->
  url_Parse (ExporterURL c) = inl u ->
  exists c',
    heap (InitTracer ctx (Some l) σ).2 !! l = Some c'
    /\ ExporterURL c' = ExporterURL c
    /\ SecretToken c' = SecretToken c
    /\ ServiceName c' = ServiceName c
    /\ ServiceVersion c' = ServiceVersion c
    /\ DeploymentEnvironment c' = DeploymentEnvironment c
    /\ Sampler c' = Sampler c
    /\ Creds c' = (if decide (url.Scheme u = "http") then None else Creds c)
    /\ forall l', l' <> l -> heap (InitTracer ctx (Some l) σ).2 !! l' = heap σ !! l'.
Proof.
  intros Hl Hurl Hname Hparse.
  rewrite (InitTracer_heap ctx l c σ Hl), !decide_False, Hparse by done.
  destruct (decide (url.Scheme u = "http")) as [Hs|Hs].
  - exists (set_Creds None c). rewrite lookup_insert_eq. split_and!; try done.
    intros l' Hne. by rewrite lookup_insert_ne.
  - exists c. by split_and!.
Qed.

(** C6. On success the exporter was started on, and the provider exports
    through, a client whose headers are exactly the authorization header
    made of "Bearer " and the secret token; with an empty token the header
    is "Bearer ". *)
Theorem InitTracer_authorization_header ctx l c σ h σ' :
  heap σ !! l = Some c ->
  InitTracer ctx (Some l) σ = (Returns (h, None), σ') ->
  exists o tp,
    h = Some o
    /\ tracerProvider o = Some (trace.Sdk tp)
    /\ events σ' = (events σ ++ [ExporterStart ctx (otlptrace.client (sdkTrace.WithBatcher tp))])%list
    /\ otlptracegrpc.headers_of (otlptrace.client (sdkTrace.WithBatcher tp))
       = {[ "Authorization" := "Bearer " +:+ SecretToken c ]}
    /\ otlptracegrpc.headers_of (otlptrace.client (sdkTrace.WithBatcher tp)) !! "Authorization"
       = Some ("Bearer " +:+ SecretToken c)
    /\ (SecretToken c = "" ->
        otlptracegrpc.headers_of (otlptrace.client (sdkTrace.WithBatcher tp)) !! "Authorization"
        = Some "Bearer ").
Proof.
  intros Hl Hrun.
  destruct (InitTracer_accepted_inv _ _ _ _ _ Hrun)
    as (l' & c' & u & res & ? & Hl' & _ & _ & _ & _ & _ & -> & ->).
  simplify_eq. eexists _, _. split_and!; [done | done | done | done | |].
  - cbn. apply lookup_singleton_eq.
  - intros Htok. cbn. rewrite Htok. apply lookup_singleton_eq.
Qed.


(** C8. On success the propagation policy installed is the composite of
    two propagators in this order: trace context, then baggage. *)
Theorem InitTracer_propagator ctx l c σ h σ' :
  heap σ !! l = Some c ->
  InitTracer ctx (Some l) σ = (Returns (h, None), σ') ->
  globalPropagator σ'
  = propagation.Composite [propagation.TraceContext; propagation.Baggage]
  /\ exists ps, globalPropagator σ' = propagation.Composite ps
                /\ length ps = 2
                /\ ps !! 0 = Some propagation.TraceContext
                /\ ps !! 1 = Some propagation.Baggage.
Proof.
  intros Hl Hrun.
  destruct (InitTracer_accepted_inv _ _ _ _ _ Hrun)
    as (l' & c' & u & res & _ & _ & _ & _ & _ & _ & _ & _ & ->).
  split; [done|]. by eexists.
Qed.

(** C9. [Shutdown] on a handle over the no-op provider, such as the one
    [InitNoopTracer] returns, returns nil and leaves the state as it was: no
    provider is flushed and nothing leaves the process.  On a handle over an
    SDK provider whose shutdown fails, it returns that failure wrapped as
    "failed to shutdown tracer provider: ..."; it does not panic. *)
Theorem Shutdown_noop_and_failure ctx σ :
  (forall o, tracerProvider o = Some trace.Noop ->
             Shutdown ctx (Some o) σ = (Returns None, σ))
  /\ (exists o σ1, InitNoopTracer ctx σ = (Returns (Some o, None), σ1)
                   /\ Shutdown ctx (Some o) σ1 = (Returns None, σ1))
  /\ (forall o tp err,
        tracerProvider o = Some (trace.Sdk tp) ->
        provider_Shutdown ctx tp (events σ) = Some err ->
        exists e,
          (Shutdown ctx (Some o) σ).1 = Returns (Some e)
          /\ e = fmt_Errorf_w "failed to shutdown tracer provider: " err
          /\ errors_Unwrap e = Some err
          /\ Error e = "failed to shutdown tracer provider: " +:+ Error err).
Proof.
  split_and!.
  - intros o Ho. unfold Shutdown.
    rewrite (bind_Returns _ _ σ o σ) by done. by rewrite Ho.
  - by eexists _, _.
  - intros o tp err Ho Herr. eexists. unfold Shutdown.
    rewrite (bind_Returns _ _ σ o σ) by done. rewrite Ho.
    unfold sdkTrace_Shutdown, emit, mbind, M_bind, mret, M_ret. simpl.
    rewrite Herr. by split_and!.
Qed.

(** C10. On a nil [*Config] the call panics on its first statement, with
    the state as it was, and so returns no error value; on a pointer to a
    [Config] it always returns. *)
Theorem InitTracer_nil_Config_panics ctx σ :
  InitTracer ctx None σ = (Panics nil_dereference, σ)
  /\ (forall r, (InitTracer ctx None σ).1 <> Returns r)
  /\ (forall l c, heap σ !! l = Some c ->
                  exists r, (InitTracer ctx (Some l) σ).1 = Returns r).
Proof.
  split_and!; [done | done |].
  intros l c Hl. unfold InitTracer.
  rewrite (bind_Returns _ _ _ _ _ (deref_live _ _ _ Hl)).
  run; eauto.
Qed.

(** *** Further properties of [InitTracer] *)

(** X1. A call that returns gives back either a handle and a nil error, or
    a nil handle and an error: never both, never neither. *)
Theorem InitTracer_handle_xor_error ctx cfg σ h e σ' :
  InitTracer ctx cfg σ = (Returns (h, e), σ') ->
  (is_Some h /\ e = None) \/ (h = None /\ is_Some e).
Proof.
  intros Hrun. destruct e as [e|].
  - right. split; [|by eexists]. run; done.
  - left. split; [|done].
    destruct (InitTracer_accepted_inv _ _ _ _ _ Hrun)
      as (l & c & u & res & _ & _ & _ & _ & _ & _ & _ & -> & _).
    by eexists.
Qed.

(** X2. Every error returned names its cause: the endpoint error means the
    URL was empty; the service-name error means the URL was not empty and
    the name was; the other three wrap, unchanged, the error of [url.Parse],
    of the exporter start or of [resource.New]. *)
Theorem InitTracer_error_cause ctx cfg σ h e σ' :
  InitTracer ctx cfg σ = (Returns (h, Some e), σ') ->
  exists l c,
    cfg = Some l /\ heap σ !! l = Some c
    /\ ((ExporterURL c = ""
         /\ e = errors_New "endpoint is missing in the otlp tracer configuration")
        \/ (ExporterURL c <> "" /\ ServiceName c = ""
            /\ e = errors_New "service name is missing in the otlp tracer configuration")
        \/ (ExporterURL c <> "" /\ ServiceName c <> ""
            /\ exists err, url_Parse (ExporterURL c) = inr err
                           /\ e = fmt_Errorf_w "invalid exporter URL: " err)
        \/ (ExporterURL c <> "" /\ ServiceName c <> ""
            /\ exists client err,
                 exporter_Start ctx client = Some err
                 /\ e = fmt_Errorf_w "failed to create otlp exporter: " err)
        \/ (ExporterURL c <> "" /\ ServiceName c <> ""
            /\ exists kvs err,
                 resource_New ctx kvs = inr err
                 /\ e = fmt_Errorf_w "failed to create otlp resource: " err)).
Proof.
  intros Hrun. destruct cfg as [l|]; [|run].
  destruct (heap σ !! l) as [c|] eqn:Hl; [|run].
  exists l, c. split_and!; [done | done |].
  unfold InitTracer in Hrun.
  rewrite (bind_Returns _ _ _ _ _ (deref_live _ _ _ Hl)) in Hrun.
  destruct (decide (ExporterURL c = "")); [left; by run|].
  destruct (decide (ServiceName c = "")); [right; left; by run|].
  destruct (url_Parse (ExporterURL c)) as [u|err] eqn:Hparse.
  - do 3 right. run.
    all: try (left; split_and!; [done | done |]; eexists _, _; split; [eassumption | done]).
    all: try (right; split_and!; [done | done |]; eexists _, _; split; [eassumption | done]).
  - right; right; left. run. split_and!; [done | done |]. by eexists.
Qed.

(** X3. A validated configuration whose URL parses is accepted when the
    exporter starts on the client built for it and [resource.New] builds a
    resource from its four attributes. *)
Theorem InitTracer_succeeds ctx l c u res σ :
  heap σ !! l = Some c ->
  ExporterURL c <> "" -> ServiceName c <> "" ->
  url_Parse (ExporterURL c) = inl u ->
  exporter_Start ctx
    (otlptracegrpc.NewClient
       [ otlptracegrpc.WithEndpoint (url.Host u);
         match (if decide (url.Scheme u = "http") then None else Creds c) with
         | Some cr => otlptracegrpc.WithTLSCredentials cr
         | None => otlptracegrpc.WithInsecure
         end;
         otlptracegrpc.WithHeaders {[ "Authorization" := "Bearer " +:+ SecretToken c ]} ])
  = None ->
  resource_New ctx
    [ semconv.String semconv.ServiceNameKey (ServiceName c);
      semconv.String semconv.ServiceVersionKey (ServiceVersion c);
      semconv.String semconv.DeploymentEnvironmentKey (DeploymentEnvironment c);
      semconv.String semconv.TelemetrySDKLanguageKey "go" ] = inl res ->
  exists o, (InitTracer ctx (Some l) σ).1 = Returns (Some o, None)
            /\ tracerProvider o
               = Some (trace.Sdk (sdkTrace.NewTracerProvider
                                    (default sdkTrace.AlwaysSample (Sampler c))
                                    {| otlptrace.client :=
                                         otlptracegrpc.NewClient
                                           [ otlptracegrpc.WithEndpoint (url.Host u);
                                             match (if decide (url.Scheme u = "http")
                                                    then None else Creds c) with
                                             | Some cr => otlptracegrpc.WithTLSCredentials cr
                                             | None => otlptracegrpc.WithInsecure
                                             end;
                                             otlptracegrpc.WithHeaders
                                               {[ "Authorization"
                                                  := "Bearer " +:+ SecretToken c ]} ] |}
                                    res)).
Proof.
  intros Hl Hurl Hname Hparse Hstart Hres. unfold InitTracer.
  rewrite (bind_Returns _ _ _ _ _ (deref_live _ _ _ Hl)).
  rewrite !decide_False by done. rewrite Hparse.
  unfold_M. simpl.
  destruct (decide (url.Scheme u = "http")); simpl; rewrite ?Hl; simpl;
    rewrite ?lookup_insert_eq; simpl.
  - rewrite Hstart. simpl. rewrite Hres. simpl. by eexists.
  - destruct (Creds c); rewrite Hstart; simpl; rewrite Hres; simpl;
      destruct (Sampler c); by eexists.
Qed.

(** X4. A configuration refused before the exporter is built (empty URL,
    empty service name, URL that does not parse) has no effect at all: the
    heap, the two slots and the events are as before, and the handle is
    nil. *)
Theorem InitTracer_rejected_no_effect ctx l c σ :
  heap σ !! l = Some c ->
  ExporterURL c = "" \/ ServiceName c = ""
  \/ (exists err, url_Parse (ExporterURL c) = inr err) ->
  exists e, InitTracer ctx (Some l) σ = (Returns (None, Some e), σ).
Proof.
  intros Hl Hbad. unfold InitTracer.
  rewrite (bind_Returns _ _ _ _ _ (deref_live _ _ _ Hl)).
  destruct (decide (ExporterURL c = "")); [by eexists|].
  destruct (decide (ServiceName c = "")); [by eexists|].
  destruct Hbad as [? | [? | [err Hparse]]]; [done | done |].
  rewrite Hparse. by eexists.
Qed.

(** X5. A call starts at most one exporter and shuts no provider down: the
    events afterwards are those before, followed by at most one exporter
    start. *)
Theorem InitTracer_events ctx cfg σ :
  events (InitTracer ctx cfg σ).2 = events σ
  \/ exists client,
       events (InitTracer ctx cfg σ).2 = (events σ ++ [ExporterStart ctx client])%list.
Proof.
  destruct cfg as [l|]; [|by left].
  destruct (heap σ !! l) as [c|] eqn:Hl; [|left; unfold InitTracer, mbind, M_bind, deref; by rewrite Hl].
  unfold InitTracer. rewrite (bind_Returns _ _ _ _ _ (deref_live _ _ _ Hl)).
  destruct (decide (ExporterURL c = "")); [by left|].
  destruct (decide (ServiceName c = "")); [by left|].
  destruct (url_Parse (ExporterURL c)) as [u|err]; [|by left].
  right. run; by eexists.
Qed.

(** X7. When the scheme is not http, the security option follows [Creds]:
    TLS with the credentials when there are some, insecure when there are
    none (so an https URL without credentials is exported without transport
    security).  The configuration is not written. *)
Theorem InitTracer_security_mode ctx l c u σ :
  heap σ !! l = Some c ->
  ExporterURL c <> "" -> ServiceName c <> "" ->
  url_Parse (ExporterURL c) = inl u ->
  url.Scheme u <> "http" ->
  exists client,
    events (InitTracer ctx (Some l) σ).2 = (events σ ++ [ExporterStart ctx client])%list
    /\ otlptracegrpc.opts client
       = [ otlptracegrpc.WithEndpoint (url.Host u);
           match Creds c with
           | Some cr => otlptracegrpc.WithTLSCredentials cr
           | None => otlptracegrpc.WithInsecure
           end;
           otlptracegrpc.WithHeaders {[ "Authorization" := "Bearer " +:+ SecretToken c ]} ]
    /\ otlptracegrpc.no_transport_security client = bool_decide (Creds c = None)
    /\ heap (InitTracer ctx (Some l) σ).2 = heap σ.
Proof.
  intros Hl Hurl Hname Hparse Hscheme.
  eexists (otlptracegrpc.NewClient _).
  rewrite (InitTracer_heap ctx l c σ Hl), !decide_False, Hparse by done.
  rewrite decide_False by done.
  unfold InitTracer.
  rewrite (bind_Returns _ _ _ _ _ (deref_live _ _ _ Hl)).
  rewrite !decide_False by done. rewrite Hparse. simpl.
  rewrite decide_False by done.
  unfold_M. simpl. rewrite Hl. simpl.
  split_and!; [| reflexivity | by destruct (Creds c) | done].
  repeat case_match; simplify_eq/=; done.
Qed.


(** *** [InitNoopTracer], the accessors and [Shutdown] *)

(** X9. [InitNoopTracer] after a successful [InitTracer] puts the no-op
    provider in the slot, and leaves installed the composite propagator of
    [InitTracer]; the SDK provider of the earlier handle is not shut down. *)
Theorem InitNoopTracer_after_InitTracer ctx ctx' cfg σ h σ1 :
  InitTracer ctx cfg σ = (Returns (h, None), σ1) ->
  exists o tp,
    h = Some o
    /\ tracerProvider o = Some (trace.Sdk tp)
    /\ globalTracerProvider σ1 = trace.Sdk tp
    /\ globalTracerProvider (InitNoopTracer ctx' σ1).2 = trace.Noop
    /\ globalPropagator (InitNoopTracer ctx' σ1).2
       = propagation.Composite [propagation.TraceContext; propagation.Baggage]
    /\ events (InitNoopTracer ctx' σ1).2 = events σ1.
Proof.
  intros Hrun.
  destruct (InitTracer_accepted_inv _ _ _ _ _ Hrun)
    as (l & c & u & res & _ & _ & _ & _ & _ & _ & _ & -> & ->).
  eexists _, _. by split_and!.
Qed.

(** X10. [Shutdown] writes neither the heap nor the two slots, so a
    provider that was shut down stays installed; it adds at most one event,
    the shutdown of the handle's SDK provider. *)
Theorem Shutdown_frame ctx t σ :
  heap (Shutdown ctx t σ).2 = heap σ
  /\ globalTracerProvider (Shutdown ctx t σ).2 = globalTracerProvider σ
  /\ globalPropagator (Shutdown ctx t σ).2 = globalPropagator σ
  /\ (events (Shutdown ctx t σ).2 = events σ
      \/ exists o tp,
           t = Some o /\ tracerProvider o = Some (trace.Sdk tp)
           /\ events (Shutdown ctx t σ).2 = (events σ ++ [ProviderShutdown ctx tp])%list).
Proof.
  destruct t as [o|]; [|by split_and!; try left].
  unfold Shutdown. rewrite (bind_Returns _ _ σ o σ) by done.
  destruct (tracerProvider o) as [[tp| |id]|] eqn:Ho; try (by split_and!; try left).
  unfold sdkTrace_Shutdown, emit, mbind, M_bind, mret, M_ret. simpl.
  destruct (provider_Shutdown ctx tp (events σ)); (split_and!; [done | done | done |]);
    right; by eexists _, _.
Qed.

(** X11. [Shutdown] on the handle of a successful [InitTracer] shuts down
    the provider that [InitTracer] installed, once, and returns that
    provider's result: nil, or its error wrapped.  The provider is still in
    the slot afterwards. *)
Theorem Shutdown_after_InitTracer ctx ctx' cfg σ h σ1 :
  InitTracer ctx cfg σ = (Returns (h, None), σ1) ->
  exists tp,
    globalTracerProvider σ1 = trace.Sdk tp
    /\ (Shutdown ctx' h σ1).1
       = Returns (fmt_Errorf_w "failed to shutdown tracer provider: "
                    <$> provider_Shutdown ctx' tp (events σ1))
    /\ events (Shutdown ctx' h σ1).2 = (events σ1 ++ [ProviderShutdown ctx' tp])%list
    /\ globalTracerProvider (Shutdown ctx' h σ1).2 = trace.Sdk tp.
Proof.
  intros Hrun.
  destruct (InitTracer_accepted_inv _ _ _ _ _ Hrun)
    as (l & c & u & res & _ & _ & _ & _ & _ & _ & _ & -> & ->).
  eexists. split; [done|].
  unfold Shutdown, receiver, sdkTrace_Shutdown, emit, mbind, M_bind, mret, M_ret.
  simpl. by destruct (provider_Shutdown ctx' _ _).
Qed.

(** X12. [Shutdown] on a handle whose provider is not the SDK's (the field
    is nil, as in a zero-valued handle, or holds any other implementation)
    returns nil and does nothing. *)
Theorem Shutdown_not_sdk ctx o σ :
  (forall tp, tracerProvider o <> Some (trace.Sdk tp)) ->
  Shutdown ctx (Some o) σ = (Returns None, σ).
Proof.
  intros Hne. unfold Shutdown. rewrite (bind_Returns _ _ σ o σ) by done.
  destruct (tracerProvider o) as [[tp| |id]|] eqn:Ho; try done.
  by destruct (Hne tp).
Qed.

(** X13. [Shutdown] has no guard of its own: each call on a handle over an
    SDK provider calls that provider's [Shutdown], and returns what that very
    call gives.  The second of two calls reaches a provider that has been
    shut down once already, and returns its answer then (nil or the error
    wrapped), not a repeat of the first. *)
Theorem Shutdown_twice ctx1 ctx2 o tp σ :
  tracerProvider o = Some (trace.Sdk tp) ->
  (Shutdown ctx1 (Some o) σ).1
  = Returns (fmt_Errorf_w "failed to shutdown tracer provider: "
               <$> provider_Shutdown ctx1 tp (events σ))
  /\ events (Shutdown ctx2 (Some o) (Shutdown ctx1 (Some o) σ).2).2
     = (events σ ++ [ProviderShutdown ctx1 tp; ProviderShutdown ctx2 tp])%list
  /\ (Shutdown ctx2 (Some o) (Shutdown ctx1 (Some o) σ).2).1
     = Returns (fmt_Errorf_w "failed to shutdown tracer provider: "
                  <$> provider_Shutdown ctx2 tp
                        (events σ ++ [ProviderShutdown ctx1 tp])%list).
Proof.
  intros Ho.
  unfold Shutdown, receiver, sdkTrace_Shutdown, emit, mbind, M_bind, mret, M_ret.
  simpl. rewrite Ho. simpl.
  destruct (provider_Shutdown ctx1 tp (events σ)); simpl; rewrite ?Ho; simpl;
    destruct (provider_Shutdown ctx2 tp _); simpl; by rewrite <- app_assoc.
Qed.

(** X14. After a successful [InitTracer], the handle's [Tracer()] is the
    tracer named after the service over the provider now in the slot, and
    its [TracerProvider()] is that provider; neither call changes the
    state. *)
Theorem accessors_after_InitTracer ctx l c σ h σ1 :
  heap σ !! l = Some c ->
  InitTracer ctx (Some l) σ = (Returns (h, None), σ1) ->
  Tracer h σ1
  = (Returns (Some {| trace.provider := globalTracerProvider σ1;
                      trace.name := Some (ServiceName c +:+ "-tracer") |}), σ1)
  /\ TracerProvider h σ1 = (Returns (Some (globalTracerProvider σ1)), σ1).
Proof.
  intros Hl Hrun.
  destruct (InitTracer_accepted_inv _ _ _ _ _ Hrun)
    as (l' & c' & u & res & ? & Hl' & _ & _ & _ & _ & _ & -> & ->).
  simplify_eq. by rewrite Tracer_field, TracerProvider_field.
Qed.

(** *** Calling [InitTracer] again *)

(** X15. A second successful [InitTracer] replaces the provider in the slot
    by its own; the provider of the first call is not shut down, and its
    handle still holds it.  Between them the two calls started two exporters
    and nothing else left the process. *)
Theorem InitTracer_twice ctx1 ctx2 cfg1 cfg2 σ h1 σ1 h2 σ2 :
  InitTracer ctx1 cfg1 σ = (Returns (h1, None), σ1) ->
  InitTracer ctx2 cfg2 σ1 = (Returns (h2, None), σ2) ->
  exists o1 o2 tp1 tp2,
    h1 = Some o1 /\ h2 = Some o2
    /\ tracerProvider o1 = Some (trace.Sdk tp1)
    /\ tracerProvider o2 = Some (trace.Sdk tp2)
    /\ globalTracerProvider σ1 = trace.Sdk tp1
    /\ globalTracerProvider σ2 = trace.Sdk tp2
    /\ events σ2
       = (events σ ++ [ExporterStart ctx1 (otlptrace.client (sdkTrace.WithBatcher tp1));
                       ExporterStart ctx2 (otlptrace.client (sdkTrace.WithBatcher tp2))])%list.
Proof.
  intros Hrun1 Hrun2.
  destruct (InitTracer_accepted_inv _ _ _ _ _ Hrun2)
    as (l2 & c2 & u2 & res2 & _ & _ & _ & _ & _ & _ & _ & -> & ->).
  destruct (InitTracer_accepted_inv _ _ _ _ _ Hrun1)
    as (l1 & c1 & u1 & res1 & _ & _ & _ & _ & _ & _ & _ & -> & ->).
  eexists _, _, _, _. split_and!; try done.
  simpl. by rewrite <- app_assoc.
Qed.

(** X16. What a call writes to the configuration it writes once: a second
    call through the same pointer leaves the heap as the first call left
    it. *)
Theorem InitTracer_heap_settles ctx ctx' l c σ :
  heap σ !! l = Some c ->
  heap (InitTracer ctx' (Some l) (InitTracer ctx (Some l) σ).2).2
  = heap (InitTracer ctx (Some l) σ).2.
Proof.
  intros Hl.
  pose proof (InitTracer_heap ctx l c σ Hl) as H1.
  destruct (decide (ExporterURL c = "")) as [Hurl|Hurl].
  { rewrite (InitTracer_heap ctx' l c) by (by rewrite H1).
    by rewrite decide_True, H1. }
  destruct (decide (ServiceName c = "")) as [Hname|Hname].
  { rewrite (InitTracer_heap ctx' l c) by (by rewrite H1).
    by rewrite decide_False, decide_True, H1. }
  destruct (url_Parse (ExporterURL c)) as [u|err] eqn:Hparse.
  - destruct (decide (url.Scheme u = "http")) as [Hs|Hs].
    + rewrite (InitTracer_heap ctx' l (set_Creds None c))
        by (by rewrite H1, lookup_insert_eq).
      simpl. rewrite !decide_False, Hparse, decide_True by done.
      by rewrite H1, insert_insert_eq.
    + rewrite (InitTracer_heap ctx' l c) by (by rewrite H1).
      by rewrite !decide_False, Hparse, decide_False, H1.
  - rewrite (InitTracer_heap ctx' l c) by (by rewrite H1).
    by rewrite !decide_False, Hparse, H1.
Qed.

(** X17. What a call returns depends on the configuration and on the
    collaborators only: two states that hold the same [Config] at the
    pointer give the same handle or error, whatever their slots, events and
    other objects. *)
Theorem InitTracer_result_independent ctx l σ1 σ2 :
  heap σ1 !! l = heap σ2 !! l ->
  (InitTracer ctx (Some l) σ1).1 = (InitTracer ctx (Some l) σ2).1.
Proof.
  intros Hsame. unfold InitTracer, mbind, M_bind, deref.
  rewrite <- Hsame. destruct (heap σ1 !! l) as [c|] eqn:Hl; [|done].
  destruct (decide (ExporterURL c = "")); [done|].
  destruct (decide (ServiceName c = "")); [done|].
  destruct (url_Parse (ExporterURL c)) as [u|err]; [|done].
  unfold_M. simpl.
  destruct (decide (url.Scheme u = "http")); simpl;
    rewrite <- ?Hsame, ?Hl; simpl; rewrite ?lookup_insert_eq; simpl;
    repeat case_match; simplify_eq/=; done.
Qed.

End Runs.

(** ** The claims on closed runs *)

Lemma InitTracer_error_keeps_globals_witness :
  globalTracerProvider run_exporter_down.2 = trace.Other 0
  /\ globalPropagator run_exporter_down.2 = propagation.Other 0.
Proof.
  apply (InitTracer_error_keeps_globals
           (H := stub (Some connection_refused) None)
           background (Some 1%positive) (process cfg_orders)
           None (fmt_Errorf_w "failed to create otlp exporter: " connection_refused)).
  vm_compute. reflexivity.
Defined.

Lemma InitTracer_http_is_insecure_witness :
  exists client,
    events run_http_creds.2 = [ExporterStart background client]
    /\ otlptracegrpc.opts client
       = [ otlptracegrpc.WithEndpoint "localhost:4317";
           otlptracegrpc.WithInsecure;
           otlptracegrpc.WithHeaders {[ "Authorization" := "Bearer " ]} ]
    /\ otlptracegrpc.no_transport_security client = true
    /\ forall o, run_http_creds.1 = Returns (Some o, None) ->
         exists tp, tracerProvider o = Some (trace.Sdk tp)
                    /\ otlptrace.client (sdkTrace.WithBatcher tp) = client.
Proof.
  apply (InitTracer_http_is_insecure
           (H := stub None None) background 1%positive cfg_http_creds
           {| url.Scheme := "http"; url.Host := "localhost:4317" |}
           (process cfg_http_creds)).
  - reflexivity.
  - discriminate.
  - discriminate.
  - reflexivity.
  - reflexivity.
Defined.

Lemma InitTracer_sampler_cex :
  Sampler cfg_nil_sampler = Some nilSampler
  /\ exists o tp,
       run_nil_sampler.1 = Returns (Some o, None)
       /\ tracerProvider o = Some (trace.Sdk tp)
       /\ globalTracerProvider run_nil_sampler.2 = trace.Sdk tp
       /\ sdkTrace.WithSampler tp = nilSampler
       /\ Some (sdkTrace.sampler tp) <> nilSampler
       /\ sdkTrace.sampler tp = sdkTrace.parentBased sdkTrace.alwaysOnSampler
       /\ sdkTrace.sampler tp <> sdkTrace.alwaysOnSampler
       /\ sdkTrace.ShouldSample (sdkTrace.sampler tp) child_of_unsampled = sdkTrace.Drop.
Proof.
  split; [reflexivity|].
  eexists _, _. split_and!; try (vm_compute; reflexivity).
  - discriminate.
  - vm_compute. discriminate.
Qed.

Lemma InitTracer_sampler_witness :
  exists o tp,
    handle_of run_sampled = Some o
    /\ tracerProvider o = Some (trace.Sdk tp)
    /\ trace.provider <$> tracer o = Some (trace.Sdk tp)
    /\ globalTracerProvider run_sampled.2 = trace.Sdk tp
    /\ (forall s, Sampler cfg_sampled = Some (Some s) ->
                  sdkTrace.WithSampler tp = Some s /\ sdkTrace.sampler tp = s)
    /\ (Sampler cfg_sampled = None ->
        sdkTrace.WithSampler tp = sdkTrace.AlwaysSample
        /\ sdkTrace.sampler tp = sdkTrace.alwaysOnSampler
        /\ forall p, sdkTrace.ShouldSample (sdkTrace.sampler tp) p
                     = sdkTrace.RecordAndSample).
Proof.
  apply (InitTracer_sampler (H := stub None None)
           background 1%positive cfg_sampled (process cfg_sampled)).
  - reflexivity.
  - vm_compute. reflexivity.
Defined.

Lemma InitTracer_not_a_url_cex :
  heap (process cfg_not_a_url) !! 1%positive = Some cfg_not_a_url
  /\ run_not_a_url.1
     = Returns (None, Some (errors_New "service name is missing in the otlp tracer configuration"))
  /\ forall err,
       run_not_a_url.1 <> Returns (None, Some (fmt_Errorf_w "invalid exporter URL: " err)).
Proof.
  split_and!; [reflexivity | vm_compute; reflexivity |].
  intros err. vm_compute. discriminate.
Qed.

Lemma InitTracer_not_a_url_witness :
  run_not_a_url
  = (Returns (None, Some (errors_New "service name is missing in the otlp tracer configuration")),
     process cfg_not_a_url).
Proof.
  apply (InitTracer_not_a_url (H := stub None None)
           background 1%positive cfg_not_a_url (process cfg_not_a_url));
    reflexivity.
Defined.

Lemma InitTracer_Config_cex :
  heap (process cfg_http_creds) !! 1%positive = Some cfg_http_creds
  /\ Creds cfg_http_creds = Some tlsCreds
  /\ (exists o, run_http_creds.1 = Returns (Some o, None))
  /\ Creds <$> heap run_http_creds.2 !! 1%positive = Some None
  /\ heap run_http_creds.2 !! 1%positive <> Some cfg_http_creds.
Proof.
  split_and!; [reflexivity | reflexivity | | vm_compute; reflexivity |].
  - eexists. vm_compute. reflexivity.
  - vm_compute. discriminate.
Qed.

Lemma InitTracer_Config_after_witness :
  exists c',
    heap run_http_creds.2 !! 1%positive = Some c'
    /\ ExporterURL c' = "http://localhost:4317"
    /\ SecretToken c' = ""
    /\ ServiceName c' = "x"
    /\ ServiceVersion c' = ""
    /\ DeploymentEnvironment c' = ""
    /\ Sampler c' = None
    /\ Creds c' = None
    /\ forall l', l' <> 1%positive ->
         heap run_http_creds.2 !! l' = heap (process cfg_http_creds) !! l'.
Proof.
  apply (InitTracer_Config_after (H := stub None None)
           background 1%positive cfg_http_creds
           {| url.Scheme := "http"; url.Host := "localhost:4317" |}
           (process cfg_http_creds)).
  - reflexivity.
  - discriminate.
  - discriminate.
  - reflexivity.
Defined.

Lemma InitTracer_authorization_header_witness :
  exists o tp,
    handle_of run_orders = Some o
    /\ tracerProvider o = Some (trace.Sdk tp)
    /\ events run_orders.2
       = [ExporterStart background (otlptrace.client (sdkTrace.WithBatcher tp))]
    /\ otlptracegrpc.headers_of (otlptrace.client (sdkTrace.WithBatcher tp))
       = {[ "Authorization" := "Bearer " ]}
    /\ otlptracegrpc.headers_of (otlptrace.client (sdkTrace.WithBatcher tp)) !! "Authorization"
       = Some "Bearer "
    /\ (SecretToken cfg_orders = "" ->
        otlptracegrpc.headers_of (otlptrace.client (sdkTrace.WithBatcher tp)) !! "Authorization"
        = Some "Bearer ").
Proof.
  apply (InitTracer_authorization_header (H := stub None None)
           background 1%positive cfg_orders (process cfg_orders)).
  - reflexivity.
  - vm_compute. reflexivity.
Defined.



Lemma InitTracer_propagator_witness :
  globalPropagator run_orders.2
  = propagation.Composite [propagation.TraceContext; propagation.Baggage]
  /\ exists ps, globalPropagator run_orders.2 = propagation.Composite ps
                /\ length ps = 2
                /\ ps !! 0 = Some propagation.TraceContext
                /\ ps !! 1 = Some propagation.Baggage.
Proof.
  apply (InitTracer_propagator (H := stub None None)
           background 1%positive cfg_orders (process cfg_orders)
           (handle_of run_orders)).
  - reflexivity.
  - vm_compute. reflexivity.
Defined.

Lemma Shutdown_noop_and_failure_witness :
  exists e,
    (Shutdown (H := stub None (Some deadline_exceeded))
              background (Some orders_handle) (process cfg_orders)).1 = Returns (Some e)
    /\ e = fmt_Errorf_w "failed to shutdown tracer provider: " deadline_exceeded
    /\ errors_Unwrap e = Some deadline_exceeded
    /\ Error e = "failed to shutdown tracer provider: context deadline exceeded".
Proof.
  destruct (Shutdown_noop_and_failure (H := stub None (Some deadline_exceeded))
              background (process cfg_orders)) as (_ & _ & Hsdk).
  apply (Hsdk orders_handle orders_provider deadline_exceeded); reflexivity.
Defined.

Lemma InitTracer_nil_Config_panics_witness :
  exists r, run_orders.1 = Returns r.
Proof.
  destruct (InitTracer_nil_Config_panics (H := stub None None) background (process cfg_orders))
    as (_ & _ & Hlive).
  apply (Hlive 1%positive cfg_orders). reflexivity.
Defined.

(** ** The further properties on closed runs *)

Lemma InitTracer_handle_xor_error_witness :
  (is_Some (Some orders_handle) /\ (None : option error) = None)
  \/ (Some orders_handle = None /\ is_Some (None : option error)).
Proof.
  apply (InitTracer_handle_xor_error (H := stub None None)
           background (Some 1%positive) (process cfg_orders)
           (Some orders_handle) None run_orders.2).
  vm_compute. reflexivity.
Defined.

Lemma InitTracer_error_cause_witness :
  exists l c,
    Some 1%positive = Some l /\ heap (process cfg_orders) !! l = Some c
    /\ ((ExporterURL c = ""
         /\ fmt_Errorf_w "failed to create otlp exporter: " connection_refused
            = errors_New "endpoint is missing in the otlp tracer configuration")
        \/ (ExporterURL c <> "" /\ ServiceName c = ""
            /\ fmt_Errorf_w "failed to create otlp exporter: " connection_refused
               = errors_New "service name is missing in the otlp tracer configuration")
        \/ (ExporterURL c <> "" /\ ServiceName c <> ""
            /\ exists err, stub_Parse (ExporterURL c) = inr err
                           /\ fmt_Errorf_w "failed to create otlp exporter: " connection_refused
                              = fmt_Errorf_w "invalid exporter URL: " err)
        \/ (ExporterURL c <> "" /\ ServiceName c <> ""
            /\ exists (client : otlptracegrpc.Client) err,
                 Some connection_refused = Some err
                 /\ fmt_Errorf_w "failed to create otlp exporter: " connection_refused
                    = fmt_Errorf_w "failed to create otlp exporter: " err)
        \/ (ExporterURL c <> "" /\ ServiceName c <> ""
            /\ exists (kvs : list attribute.KeyValue) err,
                 inl {| resource.Attributes := kvs |} = inr err
                 /\ fmt_Errorf_w "failed to create otlp exporter: " connection_refused
                    = fmt_Errorf_w "failed to create otlp resource: " err)).
Proof.
  apply (InitTracer_error_cause (H := stub (Some connection_refused) None)
           background (Some 1%positive) (process cfg_orders) None
           (fmt_Errorf_w "failed to create otlp exporter: " connection_refused)
           run_exporter_down.2).
  vm_compute. reflexivity.
Defined.

Lemma InitTracer_succeeds_witness :
  exists o, run_orders.1 = Returns (Some o, None)
            /\ tracerProvider o = Some (trace.Sdk orders_provider).
Proof.
  apply (InitTracer_succeeds (H := stub None None)
           background 1%positive cfg_orders
           {| url.Scheme := "https"; url.Host := "collector.example:4317" |}
           (sdkTrace.WithResource orders_provider)
           (process cfg_orders)).
  - reflexivity.
  - discriminate.
  - discriminate.
  - reflexivity.
  - reflexivity.
  - reflexivity.
Defined.

Lemma InitTracer_rejected_no_effect_witness :
  exists e, run_not_a_url = (Returns (None, Some e), process cfg_not_a_url).
Proof.
  apply (InitTracer_rejected_no_effect (H := stub None None)
           background 1%positive cfg_not_a_url (process cfg_not_a_url)).
  - reflexivity.
  - right. left. reflexivity.
Defined.

Lemma InitTracer_security_mode_witness :
  exists client,
    events run_sampled.2 = [ExporterStart background client]
    /\ otlptracegrpc.opts client
       = [ otlptracegrpc.WithEndpoint "collector.example:4317";
           otlptracegrpc.WithTLSCredentials tlsCreds;
           otlptracegrpc.WithHeaders {[ "Authorization" := "Bearer s3cr3t" ]} ]
    /\ otlptracegrpc.no_transport_security client = false
    /\ heap run_sampled.2 = heap (process cfg_sampled).
Proof.
  apply (InitTracer_security_mode (H := stub None None)
           background 1%positive cfg_sampled
           {| url.Scheme := "https"; url.Host := "collector.example:4317" |}
           (process cfg_sampled)).
  - reflexivity.
  - discriminate.
  - discriminate.
  - reflexivity.
  - discriminate.
Defined.


Lemma InitNoopTracer_after_InitTracer_witness :
  exists o tp,
    Some orders_handle = Some o
    /\ tracerProvider o = Some (trace.Sdk tp)
    /\ globalTracerProvider run_orders.2 = trace.Sdk tp
    /\ globalTracerProvider (InitNoopTracer background run_orders.2).2 = trace.Noop
    /\ globalPropagator (InitNoopTracer background run_orders.2).2
       = propagation.Composite [propagation.TraceContext; propagation.Baggage]
    /\ events (InitNoopTracer background run_orders.2).2 = events run_orders.2.
Proof.
  apply (InitNoopTracer_after_InitTracer (H := stub None None)
           background background (Some 1%positive) (process cfg_orders)).
  vm_compute. reflexivity.
Defined.

Lemma Shutdown_after_InitTracer_witness :
  exists tp,
    globalTracerProvider run_orders.2 = trace.Sdk tp
    /\ (Shutdown (H := stub None (Some deadline_exceeded))
          background (Some orders_handle) run_orders.2).1
       = Returns (Some (fmt_Errorf_w "failed to shutdown tracer provider: " deadline_exceeded))
    /\ events (Shutdown (H := stub None (Some deadline_exceeded))
                 background (Some orders_handle) run_orders.2).2
       = (events run_orders.2 ++ [ProviderShutdown background tp])%list
    /\ globalTracerProvider
         (Shutdown (H := stub None (Some deadline_exceeded))
            background (Some orders_handle) run_orders.2).2 = trace.Sdk tp.
Proof.
  apply (Shutdown_after_InitTracer (H := stub None (Some deadline_exceeded))
           background background (Some 1%positive) (process cfg_orders)).
  vm_compute. reflexivity.
Defined.

Lemma Shutdown_not_sdk_witness :
  Shutdown (H := stub None (Some deadline_exceeded))
           background (Some zero_handle) (process cfg_orders)
  = (Returns None, process cfg_orders).
Proof.
  apply (Shutdown_not_sdk (H := stub None (Some deadline_exceeded))).
  discriminate.
Defined.

Lemma Shutdown_twice_witness :
  (Shutdown (H := stub_remembers) background (Some orders_handle) run_orders.2).1
  = Returns (Some (fmt_Errorf_w "failed to shutdown tracer provider: " deadline_exceeded))
  /\ events (Shutdown (H := stub_remembers) background (Some orders_handle)
               (Shutdown (H := stub_remembers)
                  background (Some orders_handle) run_orders.2).2).2
     = (events run_orders.2
        ++ [ProviderShutdown background orders_provider;
            ProviderShutdown background orders_provider])%list
  /\ (Shutdown (H := stub_remembers) background (Some orders_handle)
        (Shutdown (H := stub_remembers)
           background (Some orders_handle) run_orders.2).2).1
     = Returns None.
Proof.
  apply (Shutdown_twice (H := stub_remembers)
           background background orders_handle orders_provider run_orders.2).
  reflexivity.
Defined.

Lemma accessors_after_InitTracer_witness :
  Tracer (Some orders_handle) run_orders.2
  = (Returns (Some {| trace.provider := globalTracerProvider run_orders.2;
                      trace.name := Some "orders-tracer" |}), run_orders.2)
  /\ TracerProvider (Some orders_handle) run_orders.2
     = (Returns (Some (globalTracerProvider run_orders.2)), run_orders.2).
Proof.
  apply (accessors_after_InitTracer (H := stub None None)
           background 1%positive cfg_orders (process cfg_orders)).
  - reflexivity.
  - vm_compute. reflexivity.
Defined.

Lemma InitTracer_twice_witness :
  exists o1 o2 tp1 tp2,
    Some orders_handle = Some o1 /\ Some orders_handle = Some o2
    /\ tracerProvider o1 = Some (trace.Sdk tp1)
    /\ tracerProvider o2 = Some (trace.Sdk tp2)
    /\ globalTracerProvider run_orders.2 = trace.Sdk tp1
    /\ globalTracerProvider
         (InitTracer (H := stub None None) background (Some 1%positive) run_orders.2).2
       = trace.Sdk tp2
    /\ events (InitTracer (H := stub None None) background (Some 1%positive) run_orders.2).2
       = (events (process cfg_orders)
          ++ [ExporterStart background (otlptrace.client (sdkTrace.WithBatcher tp1));
              ExporterStart background (otlptrace.client (sdkTrace.WithBatcher tp2))])%list.
Proof.
  apply (InitTracer_twice (H := stub None None)
           background background (Some 1%positive) (Some 1%positive) (process cfg_orders)).
  - vm_compute. reflexivity.
  - vm_compute. reflexivity.
Defined.

Lemma InitTracer_heap_settles_witness :
  heap (InitTracer (H := stub None None) background (Some 1%positive) run_http_creds.2).2
  = heap run_http_creds.2.
Proof.
  apply (InitTracer_heap_settles (H := stub None None)
           background background 1%positive cfg_http_creds (process cfg_http_creds)).
  reflexivity.
Defined.

Lemma InitTracer_result_independent_witness :
  (InitTracer (H := stub None None) background (Some 1%positive) (process cfg_orders)).1
  = (InitTracer (H := stub None None) background (Some 1%positive) run_orders.2).1.
Proof.
  apply (InitTracer_result_independent (H := stub None None)).
  vm_compute. reflexivity.
Defined.
